(** * npm-util: a shallow embedding of [lib/util/npm-util.js]

    The module locates the closest [package.json] by walking up from the
    working directory, answers whether packages are declared in it, and
    shells out to [npm i --save-dev].

    The embedding follows the JavaScript source function by function.
    The Node.js primitives the source calls ([path.resolve], [path.join],
    [fs.existsSync], [fs.readFileSync], [process.cwd], [Object.keys],
    [Array.prototype.indexOf], property assignment on a plain object) are
    modelled first, on POSIX paths and without symbolic links;
    [JSON.parse] and the effect of the spawned subprocess are parameters
    of the development. *)

From Stdlib Require Import String Ascii ZArith Lia DecimalString.
From stdpp Require Import gmap strings list.
From Equations Require Import Equations.

Local Open Scope string_scope.

#[local] Set Warnings "-register-all".

(** ** Path names *)

(** A path string is kept as its [/]-separated components together with
    the flag telling whether it starts with [/].  ["/a/b"] is
    [{| absolute := true; segments := ["a"; "b"] |}], ["package.json"] is
    [rel ["package.json"]] and the root ["/"] is [abs []].  An absolute,
    normalized path (what [path.resolve] returns) is just its list of
    components. *)
Record pathname := { absolute : bool; segments : list string }.

Definition rel (segs : list string) : pathname :=
  {| absolute := false; segments := segs |}.

Definition abs (segs : list string) : pathname :=
  {| absolute := true; segments := segs |}.

(** The empty string is the one falsy path name. *)
Definition is_empty_string (p : pathname) : bool :=
  negb (absolute p) && bool_decide (segments p = []).

Module path.

(** Node's [normalizeString] for an absolute path: empty and ["."]
    components are dropped, [".."] removes the component before it and
    is dropped at the root.  [res] is the result so far, last component
    first. *)
Fixpoint normalizeString (res : list string) (segs : list string) : list string :=
  match segs with
  | [] => rev res
  | s :: segs' =>
      if (s =? EmptyString)%string || (s =? ".")%string then normalizeString res segs'
      else if (s =? "..")%string then normalizeString (tail res) segs'
      else normalizeString (s :: res) segs'
  end.

Definition normalize (segs : list string) : list string :=
  normalizeString [] segs.

(** [path.resolve(base, p)] for an absolute [base]; [path.resolve(p)]
    is [resolve cwd p] with the working directory as [base]. *)
Definition resolve (base : list string) (p : pathname) : list string :=
  normalize (if absolute p then segments p else base ++ segments p).

(** [path.join(dir, p)] for an absolute [dir]: the arguments are
    concatenated with [/] and the result normalized. *)
Definition join (dir : list string) (p : pathname) : list string :=
  normalize (dir ++ segments p).

End path.

(** ** The world: working directory, file system, spawned commands *)

Inductive node :=
| File (content : string)
| Directory.

Record world := {
  cwd : list string;
  files : gmap (list string) node;
  spawned : list string
}.

(** ** Exceptions and the state-and-exception monad *)

Inductive exn :=
| Error (message : string)
| TypeError
| SyntaxError
| SystemError (code : string)
| SubprocessFailure (status : Z).

Inductive completion (A : Type) :=
| Return (a : A)
| Throw (e : exn).
Arguments Return {A} a.
Arguments Throw {A} e.

Definition M (A : Type) : Type := world -> completion A * world.

Definition ret {A} (a : A) : M A := fun w => (Return a, w).

Definition throw {A} (e : exn) : M A := fun w => (Throw e, w).

Definition bind {A B} (m : M A) (k : A -> M B) : M B :=
  fun w =>
    match m w with
    | (Return a, w') => k a w'
    | (Throw e, w') => (Throw e, w')
    end.

Notation "x <- m ;; k" := (bind m (fun x => k))
  (at level 100, m at next level, right associativity).

(** Lifting of a pure computation that may throw. *)
Definition lift {A} (c : completion A) : M A := fun w => (c, w).

Module process.
Definition cwd : M (list string) := fun w => (Return (cwd w), w).
End process.

Module fs.

(** [fs.existsSync(p)] for an absolute path: true for a file and for a
    directory, never throws. *)
Definition existsSync (p : list string) : M bool :=
  fun w => (Return (bool_decide (is_Some (files w !! p))), w).

(** [fs.readFileSync(p, "utf8")] for an absolute path.  A file that
    exists is taken to be readable: permission and device errors are not
    modelled. *)
Definition readFileSync (p : list string) : M string :=
  fun w =>
    match files w !! p with
    | Some (File content) => (Return content, w)
    | Some Directory => (Throw (SystemError "EISDIR"), w)
    | None => (Throw (SystemError "ENOENT"), w)
    end.

End fs.

(** ** findPackageJson *)

(** [startDir || process.cwd()]: the working directory stands in for a
    missing argument and for the empty string. *)
Definition or_cwd (startDir : option pathname) (here : list string) : pathname :=
  match startDir with
  | Some p => if is_empty_string p then abs here else p
  | None => abs here
  end.

(** The body of the [do ... while] loop, entered with [dir].  A missing
    [package.json] moves [dir] to its parent and [continue]s, that is,
    jumps to the loop condition, which is evaluated on the new [dir]. *)
Equations? do_while (dir : list string) (w : world)
  : completion (option (list string)) * world
  by wf (length dir) lt :=
  do_while dir w :=
    (let pkgfile := path.join dir (rel ["package.json"]) in
     found <- fs.existsSync pkgfile ;;
     if negb found then
       let dir' := path.join dir (rel [".."]) in
       match decide (dir' <> path.resolve dir' (rel [".."])) with
       | left _ => fun w' => do_while dir' w'
       | right _ => ret None
       end
     else ret (Some pkgfile)) w.
Proof.
  assert (Hup : forall segs res,
             path.normalizeString res (segs ++ [".."])
             = rev (tail (rev (path.normalizeString res segs)))).
  { induction segs as [|s segs IH]; intros res; simpl.
    - by rewrite rev_involutive.
    - repeat case_match; apply IH. }
  assert (Hlen : forall segs res,
             length (path.normalizeString res segs) <= length res + length segs).
  { induction segs as [|s segs IH]; intros res; simpl.
    - rewrite length_rev. lia.
    - repeat case_match;
        match goal with |- context [path.normalizeString ?r _] =>
          specialize (IH r) end;
        destruct res; simpl in *; lia. }
  assert (Hpar : forall d, length (path.join d (rel [".."])) <= pred (length d)).
  { intros d. unfold path.join, path.normalize. simpl. rewrite Hup.
    rewrite length_rev. specialize (Hlen d []).
    rewrite <- (length_rev (path.normalizeString [] d)) in Hlen.
    destruct (rev (path.normalizeString [] d)); simpl in *; lia. }
  destruct dir as [|s dir].
  - exfalso. apply n. reflexivity.
  - specialize (Hpar (s :: dir)). fold dir' in Hpar. simpl in *. lia.
Qed.

(** [findPackageJson(startDir)]; [None] is a call without argument and
    the result [None] is [null]. *)
Definition findPackageJson (startDir : option pathname) : M (option (list string)) :=
  here <- process.cwd ;;
  let dir := path.resolve here (or_cwd startDir here) in
  do_while dir.

(** ** JavaScript values and built-ins used by [check] *)

(** A parsed JSON value.  An object is the list of its own properties,
    one entry per key, in property order; a number is kept as its
    literal. *)
Inductive json :=
| JNull
| JBoolean (b : bool)
| JNumber (literal : string)
| JString (s : string)
| JArray (items : list json)
| JObject (members : list (string * json)).

(** First binding of [key] in a property list. *)
Fixpoint assoc (key : string) (members : list (string * json)) : option json :=
  match members with
  | [] => None
  | (k, v) :: members' => if (k =? key)%string then Some v else assoc key members'
  end.

(** The property read [v.name], for a [name] that is neither ["length"],
    nor an index, nor defined on a built-in prototype (the source reads
    [dependencies] and [devDependencies] only).  [None] is [undefined];
    reading a property of [null] throws. *)
Definition get (v : json) (name : string) : completion (option json) :=
  match v with
  | JNull => Throw TypeError
  | JObject members => Return (assoc name members)
  | _ => Return None
  end.

(** The length of a JavaScript string, in UTF-16 code units, for the
    text whose UTF-8 encoding [s] is: a byte below 128 and the first byte
    of a two- or three-byte sequence stand for one code unit, the first
    byte of a four-byte sequence for the two of a surrogate pair, a
    continuation byte for none. *)
Fixpoint utf16_length (s : string) : nat :=
  match s with
  | EmptyString => 0
  | String c s' =>
      let byte := nat_of_ascii c in
      ((if byte <? 128 then 1
        else if byte <? 192 then 0
        else if byte <? 240 then 1
        else 2) + utf16_length s')%nat
  end.

(** The decimal strings ["0"], ..., ["n-1"]: the keys of an array or of a
    string of length [n]. *)
Definition indices (n : nat) : list string :=
  map (fun i => NilZero.string_of_uint (Nat.to_uint i)) (seq 0 n).

Module Object.

(** [Object.keys(v)] (ECMAScript 2015): [undefined] and [null] throw,
    other primitives are wrapped first. *)
Definition keys (v : option json) : completion (list string) :=
  match v with
  | None => Throw TypeError
  | Some JNull => Throw TypeError
  | Some (JObject members) => Return (map fst members)
  | Some (JArray items) => Return (indices (length items))
  | Some (JString s) => Return (indices (utf16_length s))
  | Some (JBoolean _) => Return []
  | Some (JNumber _) => Return []
  end.

End Object.

(** [arr.indexOf(x)]: the first index holding [x], or [-1]. *)
Fixpoint indexOf_from (i : Z) (arr : list string) (x : string) : Z :=
  match arr with
  | [] => (-1)%Z
  | y :: arr' => if (y =? x)%string then i else indexOf_from (i + 1)%Z arr' x
  end.

Definition indexOf (arr : list string) (x : string) : Z := indexOf_from 0 arr x.

(** [status[key] = value] on an object created by [{}], for a boolean
    [value].  Every key creates or overwrites an own property, except
    ["__proto__"]: that assignment reaches the accessor inherited from
    [Object.prototype], whose setter ignores a value that is neither an
    object nor [null], so no own property appears.  The map records which
    own keys the object has and their values, not the order in which
    they were created. *)
Definition set_property (status : gmap string bool) (key : string) (value : bool)
  : gmap string bool :=
  if (key =? "__proto__")%string then status else <[key := value]> status.

(** [Array.prototype.join] on an array of strings. *)
Fixpoint Array_join (arr : list string) (sep : string) : string :=
  match arr with
  | [] => EmptyString
  | [x] => x
  | x :: arr' => x ++ sep ++ Array_join arr' sep
  end.

(** The argument of [installSyncSaveDev]: a string or an array. *)
Inductive packages_arg :=
| OneString (s : string)
| AnArray (arr : list string).

(** The options object of [check]; a property that is not written, as in
    [{dependencies: true}], reads as [undefined], which is falsy. *)
Record options := { dependencies : bool; devDependencies : bool }.

(** The callback of [packages.reduce] in [check], for the array [deps]. *)
Definition reducer (deps : list string) (status : gmap string bool) (pkg : string)
  : gmap string bool :=
  set_property status pkg (negb (indexOf deps pkg =? -1)%Z).

Section NpmUtil.

(** [JSON.parse]: the parsed value, or [None] for a [SyntaxError]. *)
Variable JSON_parse : string -> option json.

(** What running a shell command does to the file system, and its exit
    status. *)
Variable subprocess : string -> gmap (list string) node -> gmap (list string) node * Z.

Definition JSON_parse_or_throw (text : string) : M json :=
  match JSON_parse text with
  | Some v => ret v
  | None => throw SyntaxError
  end.

(** Modelled from the spec: [shell.execSync] belongs to the shelljs
    package, which is not part of the repository.  The call
    [shell.execSync(command, {stdio: "inherit"})] invokes the subprocess
    synchronously, once, and a non-zero exit status throws. *)
Definition execSync (command : string) : M unit :=
  fun w =>
    let (files', status) := subprocess command (files w) in
    let w' := {| cwd := cwd w; files := files'; spawned := spawned w ++ [command] |} in
    if (status =? 0)%Z then (Return tt, w')
    else (Throw (SubprocessFailure status), w').

Definition installSyncSaveDev (packages : packages_arg) : M unit :=
  let packages :=
    match packages with
    | AnArray arr => Array_join arr " "
    | OneString s => s
    end in
  execSync ("npm i --save-dev " ++ packages).

Definition check (packages : list string) (opt : options) : M (gmap string bool) :=
  let deps : list string := [] in
  pkgJson <- findPackageJson None ;;
  match pkgJson with
  | None => throw (Error "Could not find a package.json file")
  | Some pkgJson =>
      text <- fs.readFileSync pkgJson ;;
      fileJson <- JSON_parse_or_throw text ;;
      deps <- (if devDependencies opt then
                 field <- lift (get fileJson "devDependencies") ;;
                 ks <- lift (Object.keys field) ;;
                 ret (deps ++ ks)%list
               else ret deps) ;;
      deps <- (if dependencies opt then
                 field <- lift (get fileJson "dependencies") ;;
                 ks <- lift (Object.keys field) ;;
                 ret (deps ++ ks)%list
               else ret deps) ;;
      ret (fold_left (reducer deps) packages ∅)
  end.

Definition checkDeps (packages : list string) : M (gmap string bool) :=
  check packages {| dependencies := true; devDependencies := false |}.

Definition checkDevDeps (packages : list string) : M (gmap string bool) :=
  check packages {| dependencies := false; devDependencies := true |}.

End NpmUtil.

(** ** Specification-side vocabulary *)

(** [dir] followed by its [n] nearest ancestors. *)
Fixpoint ancestors_upto (n : nat) (dir : list string) : list (list string) :=
  match n with
  | O => [dir]
  | S n' => dir :: ancestors_upto n' (removelast dir)
  end.

(** Every directory at or above [dir], nearest first, the root last. *)
Definition ancestors (dir : list string) : list (list string) :=
  ancestors_upto (length dir) dir.

(** The directories at or above [dir] without the root, unless [dir] is
    the root itself. *)
Definition below_root (dir : list string) : list (list string) :=
  ancestors_upto (pred (length dir)) dir.

(** The [package.json] of the first directory of [dirs] that has one. *)
Fixpoint first_manifest (tree : gmap (list string) node) (dirs : list (list string))
  : option (list string) :=
  match dirs with
  | [] => None
  | d :: dirs' =>
      if bool_decide (is_Some (tree !! (d ++ ["package.json"])%list))
      then Some (d ++ ["package.json"])%list
      else first_manifest tree dirs'
  end.

(** The directory a search starts from. *)
Definition start_dir (w : world) (startDir : option pathname) : list string :=
  path.resolve (cwd w) (or_cwd startDir (cwd w)).

(** No [package.json] in [dir] or in any directory above it, the root
    included. *)
Definition no_manifest_above (w : world) (dir : list string) : Prop :=
  Forall (fun d => files w !! (d ++ ["package.json"])%list = None) (ancestors dir).

(** [v] is an object in the JavaScript sense: an object or an array, not
    [null] and not a primitive. *)
Definition is_object (v : json) : Prop :=
  match v with
  | JObject _ | JArray _ => True
  | _ => False
  end.

(** The manifest field [name] is one that [opt] selects. *)
Definition selects (opt : options) (name : string) : Prop :=
  (name = "devDependencies" /\ devDependencies opt = true)
  \/ (name = "dependencies" /\ dependencies opt = true).

(** [pkg] is a key of a selected field of the manifest object. *)
Definition declared (members : list (string * json)) (opt : options) (pkg : string) : Prop :=
  exists name ms,
    selects opt name /\ assoc name members = Some (JObject ms) /\ pkg ∈ map fst ms.

(** The keys that [check] gathers from the parsed manifest: those of
    [devDependencies] first, then those of [dependencies], each only when
    selected. *)
Definition field_keys (fileJson : json) (selected : bool) (name : string)
    (deps : list string) : completion (list string) :=
  if selected then
    match get fileJson name with
    | Return field =>
        match Object.keys field with
        | Return ks => Return (deps ++ ks)%list
        | Throw e => Throw e
        end
    | Throw e => Throw e
    end
  else Return deps.

Definition gather (fileJson : json) (opt : options) : completion (list string) :=
  match field_keys fileJson (devDependencies opt) "devDependencies" [] with
  | Return deps => field_keys fileJson (dependencies opt) "dependencies" deps
  | Throw e => Throw e
  end.

(** What [check] answers in a world, as a function of what is on disk at
    or above the working directory. *)
Definition check_outcome (parse : string -> option json)
    (packages : list string) (opt : options) (w : world)
  : completion (gmap string bool) :=
  match first_manifest (files w) (below_root (start_dir w None)) with
  | None => Throw (Error "Could not find a package.json file")
  | Some pkgJson =>
      match files w !! pkgJson with
      | Some (File text) =>
          match parse text with
          | Some fileJson =>
              match gather fileJson opt with
              | Return deps => Return (fold_left (reducer deps) packages ∅)
              | Throw e => Throw e
              end
          | None => Throw SyntaxError
          end
      | Some Directory => Throw (SystemError "EISDIR")
      | None => Throw (SystemError "ENOENT")
      end
  end.


(** [m] leaves the world as it found it, whatever it returns or throws. *)
Definition read_only {A} (m : M A) : Prop := forall w, snd (m w) = w.

(** [needle] occurs in [hay]. *)
Definition occurs_in (needle hay : string) : Prop :=
  exists before after, hay = before ++ needle ++ after.

(** ** Sample manifests and worlds *)

(** A [JSON.parse] that knows the sample manifest texts below, written
    with ['] for the double quote; any other text is a syntax error. *)
Definition sample_parse (text : string) : option json :=
  if (text =? "{'dependencies': {'a': '1.0.0', 'b': '2.0.0'}}")%string then
    Some (JObject [("dependencies",
                    JObject [("a", JString "1.0.0"); ("b", JString "2.0.0")])])
  else if (text =? "{'devDependencies': {'x': '1.0.0'}}")%string then
    Some (JObject [("devDependencies", JObject [("x", JString "1.0.0")])])
  else if (text =? "{}")%string then Some (JObject [])
  else None.

(** A project in [/home/me/project] with the given manifest text, seen
    from its [lib] directory. *)
Definition project_world (text : string) : world :=
  {| cwd := ["home"; "me"; "project"; "lib"];
     files := {[ ["home"; "me"; "project"; "package.json"] := File text ]};
     spawned := [] |}.

(** The only [package.json] is [/package.json]; the working directory is
    [/home/me]. *)
Definition root_manifest_world : world :=
  {| cwd := ["home"; "me"];
     files := {[ ["package.json"] := File "{}" ]};
     spawned := [] |}.

(** No [package.json] at all. *)
Definition bare_world : world :=
  {| cwd := ["home"; "me"]; files := ∅; spawned := [] |}.

(** A [JSON.parse] that also knows manifests with both fields, with a
    [null] field and without an object at the top. *)
Definition sample_parse_more (text : string) : option json :=
  if (text =? "{'dependencies': {'a': '1.0.0'}, 'devDependencies': {'x': '1.0.0'}}")%string then
    Some (JObject [("dependencies", JObject [("a", JString "1.0.0")]);
                   ("devDependencies", JObject [("x", JString "1.0.0")])])
  else if (text =? "{'dependencies': null}")%string then
    Some (JObject [("dependencies", JNull)])
  else if (text =? "[]")%string then Some (JArray [])
  else sample_parse text.

(** The project of [project_world] with a directory named [package.json]
    where the manifest should be. *)
Definition directory_manifest_world : world :=
  {| cwd := ["home"; "me"; "project"; "lib"];
     files := {[ ["home"; "me"; "project"; "package.json"] := Directory ]};
     spawned := [] |}.

(** ** Paths: normalization of clean component lists *)

Definition clean_segment (s : string) : Prop := s <> EmptyString /\ s <> "." /\ s <> "..".

Definition clean (segs : list string) : Prop := Forall clean_segment segs.

Lemma clean_segment_eqb s :
  clean_segment s ->
  (s =? EmptyString)%string = false /\ (s =? ".")%string = false /\ (s =? "..")%string = false.
Proof.
  intros (H1 & H2 & H3). repeat split; apply String.eqb_neq; assumption.
Qed.

Lemma clean_segment_dec s :
  clean_segment s \/ s = EmptyString \/ s = "." \/ s = "..".
Proof.
  unfold clean_segment.
  destruct (decide (s = EmptyString)); [tauto|].
  destruct (decide (s = ".")); [tauto|].
  destruct (decide (s = "..")); tauto.
Qed.

Lemma normalizeString_app l1 l2 res :
  path.normalizeString res (l1 ++ l2)
  = path.normalizeString (rev (path.normalizeString res l1)) l2.
Proof.
  revert res. induction l1 as [|s l1 IH]; intros res; simpl.
  - by rewrite rev_involutive.
  - repeat case_match; apply IH.
Qed.

Lemma normalizeString_clean segs res :
  clean segs -> path.normalizeString res segs = (rev res ++ segs)%list.
Proof.
  revert res. induction segs as [|s segs IH]; intros res Hc; simpl.
  - by rewrite app_nil_r.
  - inversion Hc as [|? ? Hs Hc']; subst.
    destruct (clean_segment_eqb s Hs) as (-> & -> & ->). simpl.
    rewrite IH by assumption. simpl. by rewrite <- app_assoc.
Qed.

Lemma clean_tail l : clean l -> clean (tail l).
Proof. intros H. destruct l; [exact H|]. by inversion H. Qed.

Lemma clean_normalizeString segs res :
  clean res -> clean (path.normalizeString res segs).
Proof.
  revert res. induction segs as [|s segs IH]; intros res Hc; simpl.
  - unfold clean. apply Forall_forall. intros x Hx.
    apply (proj1 (Forall_forall _ _) Hc). apply list_elem_of_In.
    apply in_rev. by apply list_elem_of_In.
  - destruct (clean_segment_dec s) as [Hs | [-> | [-> | ->]]]; simpl.
    + destruct (clean_segment_eqb s Hs) as (-> & -> & ->). simpl.
      apply IH. by constructor.
    + by apply IH.
    + by apply IH.
    + apply IH. by apply clean_tail.
Qed.

Lemma clean_normalize segs : clean (path.normalize segs).
Proof. apply clean_normalizeString. constructor. Qed.

Lemma clean_resolve base p : clean (path.resolve base p).
Proof. apply clean_normalize. Qed.

Lemma normalize_clean segs : clean segs -> path.normalize segs = segs.
Proof. intros H. unfold path.normalize. by rewrite normalizeString_clean. Qed.

Lemma rev_tail_rev (l : list string) : rev (tail (rev l)) = removelast l.
Proof.
  induction l as [|x l _] using rev_ind; [reflexivity|].
  rewrite rev_app_distr. simpl. rewrite rev_involutive.
  by rewrite removelast_last.
Qed.

Lemma join_child dir s :
  clean dir -> clean_segment s -> path.join dir (rel [s]) = (dir ++ [s])%list.
Proof.
  intros Hd Hs. unfold path.join. simpl. apply normalize_clean.
  apply Forall_app. split; [exact Hd|]. constructor; [exact Hs|constructor].
Qed.

Lemma join_parent dir :
  clean dir -> path.join dir (rel [".."]) = removelast dir.
Proof.
  intros Hd. unfold path.join, path.normalize. simpl.
  rewrite normalizeString_app, (normalizeString_clean dir) by assumption.
  simpl. apply rev_tail_rev.
Qed.

Lemma resolve_parent dir :
  clean dir -> path.resolve dir (rel [".."]) = removelast dir.
Proof. apply join_parent. Qed.

Lemma clean_removelast dir : clean dir -> clean (removelast dir).
Proof.
  induction dir as [|x l _] using rev_ind; [done|].
  rewrite removelast_last. intros H. by apply Forall_app in H as [H _].
Qed.

Lemma removelast_fixpoint (l : list string) : removelast l = l <-> l = [].
Proof.
  split; [|by intros ->].
  induction l as [|x l _] using rev_ind; [done|].
  rewrite removelast_last. intros H.
  apply (f_equal (@length string)) in H. rewrite length_app in H. simpl in H. lia.
Qed.

Lemma package_json_clean : clean_segment "package.json".
Proof. repeat split; discriminate. Qed.

Lemma do_while_step dir w :
  do_while dir w =
    let pkgfile := path.join dir (rel ["package.json"]) in
    if bool_decide (is_Some (files w !! pkgfile)) then (Return (Some pkgfile), w)
    else
      let dir' := path.join dir (rel [".."]) in
      if bool_decide (dir' <> path.resolve dir' (rel [".."])) then do_while dir' w
      else (Return None, w).
Proof.
  rewrite do_while_equation_1. unfold bind, fs.existsSync. cbn zeta.
  destruct (bool_decide (is_Some _)); simpl; [reflexivity|].
  destruct (decide _) as [H|H].
  - rewrite bool_decide_eq_true_2 by exact H. reflexivity.
  - rewrite bool_decide_eq_false_2 by exact H. reflexivity.
Qed.

(** ** The search loop *)


Lemma first_manifest_none tree dirs :
  Forall (fun d => tree !! (d ++ ["package.json"])%list = None) dirs ->
  first_manifest tree dirs = None.
Proof.
  induction 1 as [|d dirs Hd _ IH]; simpl; [reflexivity|].
  rewrite Hd, IH. rewrite bool_decide_eq_false_2; [done|].
  by intros [? ?].
Qed.

Lemma ancestors_upto_incl n m dir :
  (n <= m)%nat -> ancestors_upto n dir ⊆ ancestors_upto m dir.
Proof.
  revert m dir. induction n as [|n IH]; intros m dir Hle d Hd; simpl in *.
  - apply list_elem_of_singleton in Hd as ->.
    destruct m; simpl; apply list_elem_of_here.
  - destruct m as [|m]; [lia|]. simpl.
    apply elem_of_cons in Hd as [->|Hd]; [apply list_elem_of_here|].
    apply list_elem_of_further. apply (IH m); [lia|exact Hd].
Qed.

Lemma below_root_ancestors dir : below_root dir ⊆ ancestors dir.
Proof. apply ancestors_upto_incl. lia. Qed.

(** The loop returns the [package.json] of the nearest directory among
    the start directory and its ancestors below the root. *)
Lemma do_while_spec dir w :
  clean dir ->
  do_while dir w = (Return (first_manifest (files w) (below_root dir)), w).
Proof.
  induction dir as [|x l IH] using rev_ind; intros Hc.
  - rewrite do_while_step. cbn. by destruct (bool_decide _).
  - rewrite do_while_step. cbn zeta.
    rewrite join_child by (exact Hc || exact package_json_clean).
    rewrite join_parent by exact Hc. rewrite removelast_last.
    apply Forall_app in Hc as [Hl _].
    rewrite resolve_parent by exact Hl.
    unfold below_root in *. rewrite length_app. simpl length.
    replace (pred (length l + 1)) with (length l) by lia.
    destruct (length l) as [|n] eqn:Hn.
    + apply length_zero_iff_nil in Hn as ->.
      simpl. by destruct (bool_decide _).
    + simpl ancestors_upto. rewrite removelast_last. simpl first_manifest.
      destruct (bool_decide (is_Some _)); [reflexivity|].
      rewrite bool_decide_eq_true_2.
      * rewrite IH by exact Hl. reflexivity.
      * intros Heq. symmetry in Heq. apply removelast_fixpoint in Heq.
        subst l. discriminate Hn.
Qed.

Lemma findPackageJson_spec startDir w :
  findPackageJson startDir w
  = (Return (first_manifest (files w) (below_root (start_dir w startDir))), w).
Proof.
  unfold findPackageJson, bind, process.cwd. cbn zeta.
  apply do_while_spec. apply clean_resolve.
Qed.

Lemma first_manifest_elem tree dirs p :
  first_manifest tree dirs = Some p ->
  exists d, d ∈ dirs /\ p = (d ++ ["package.json"])%list /\ is_Some (tree !! p).
Proof.
  induction dirs as [|d dirs IH]; simpl; [discriminate|].
  destruct (bool_decide (is_Some _)) eqn:Hd.
  - intros [= <-]. exists d. apply bool_decide_eq_true in Hd.
    split; [apply list_elem_of_here|done].
  - intros H. destruct (IH H) as (d' & Hin & Hp).
    exists d'. split; [by apply list_elem_of_further|exact Hp].
Qed.

(** ** Membership and the status object *)

Lemma indexOf_from_spec arr x i :
  (0 <= i)%Z ->
  (indexOf_from i arr x = -1)%Z <-> x ∉ arr.
Proof.
  revert i. induction arr as [|y arr IH]; intros i Hi; simpl.
  - split; [intros _; apply not_elem_of_nil|done].
  - destruct (String.eqb_spec y x) as [->|Hne].
    + split; [lia|]. intros H. exfalso. apply H. apply list_elem_of_here.
    + rewrite IH by lia. rewrite not_elem_of_cons.
      split; [intros H; split; [congruence|exact H]|tauto].
Qed.

Lemma indexOf_found arr x :
  negb (indexOf arr x =? -1)%Z = bool_decide (x ∈ arr).
Proof.
  unfold indexOf. destruct (decide (x ∈ arr)) as [Hin|Hout].
  - rewrite bool_decide_eq_true_2 by exact Hin.
    apply negb_true_iff, Z.eqb_neq. intros H.
    by apply indexOf_from_spec in H.
  - rewrite bool_decide_eq_false_2 by exact Hout.
    apply negb_false_iff, Z.eqb_eq. by apply indexOf_from_spec.
Qed.

Lemma reduce_lookup deps packages (status : gmap string bool) key :
  fold_left (reducer deps) packages status !! key
  = if decide (key ∈ packages /\ key <> "__proto__")
    then Some (bool_decide (key ∈ deps))
    else status !! key.
Proof.
  revert status. induction packages as [|pkg packages IH]; intros status;
    cbn [fold_left].
  - rewrite decide_False; [reflexivity|]. intros [H _]. by apply elem_of_nil in H.
  - rewrite IH. unfold reducer, set_property. rewrite indexOf_found.
    destruct (decide (key ∈ packages /\ key <> "__proto__")) as [[Hin Hp]|Hnin].
    { rewrite decide_True; [reflexivity|].
      split; [by apply list_elem_of_further|exact Hp]. }
    destruct (decide (pkg = key /\ key <> "__proto__")) as [[-> Hp]|Hother].
    { rewrite decide_True by (split; [apply list_elem_of_here|exact Hp]).
      apply String.eqb_neq in Hp. rewrite Hp. apply lookup_insert_eq. }
    rewrite decide_False.
    + destruct (String.eqb_spec pkg "__proto__") as [->|Hproto]; [reflexivity|].
      apply lookup_insert_ne. intros ->. apply Hother. by split.
    + intros [Hin Hp]. apply elem_of_cons in Hin as [Heq|Hin].
      * apply Hother. by split.
      * apply Hnin. by split.
Qed.

Lemma reduce_dom deps packages :
  dom (fold_left (reducer deps) packages ∅)
  = list_to_set (filter (fun pkg => pkg <> "__proto__") packages).
Proof.
  apply set_eq. intros key.
  rewrite elem_of_dom, reduce_lookup, elem_of_list_to_set, list_elem_of_filter.
  case_decide as H.
  - split; [tauto|]. intros _. by eexists.
  - rewrite lookup_empty. split; [by intros [? ?]|]. tauto.
Qed.


(** ** Strings *)

Lemma append_assoc (a b c : string) : (a ++ b) ++ c = a ++ b ++ c.
Proof.
  induction a as [|x a IH]; [reflexivity|].
  change (String x ((a ++ b) ++ c) = String x (a ++ b ++ c)). by rewrite IH.
Qed.

Lemma append_empty_r (a : string) : a ++ EmptyString = a.
Proof.
  induction a as [|x a IH]; [reflexivity|].
  change (String x (a ++ EmptyString) = String x a). by rewrite IH.
Qed.

Lemma Array_join_concat arr sep : Array_join arr sep = String.concat sep arr.
Proof.
  induction arr as [|x [|y arr] IH]; try reflexivity.
  change (x ++ sep ++ Array_join (y :: arr) sep = x ++ sep ++ String.concat sep (y :: arr)).
  by rewrite IH.
Qed.

Lemma Array_join_cons x arr sep :
  arr <> [] -> Array_join (x :: arr) sep = x ++ sep ++ Array_join arr sep.
Proof. destruct arr; [done|reflexivity]. Qed.

Lemma Array_join_occurs name arr sep :
  name ∈ arr -> occurs_in name (Array_join arr sep).
Proof.
  induction arr as [|x arr IH]; intros Hin; [by apply elem_of_nil in Hin|].
  destruct arr as [|y arr].
  - apply list_elem_of_singleton in Hin as ->.
    exists EmptyString, EmptyString. change (x = x ++ EmptyString). by rewrite append_empty_r.
  - rewrite Array_join_cons by discriminate.
    apply elem_of_cons in Hin as [->|Hin].
    + exists EmptyString, (sep ++ Array_join (y :: arr) sep). reflexivity.
    + destruct (IH Hin) as (before & after & ->).
      exists (x ++ sep ++ before), after. by rewrite !append_assoc.
Qed.

Lemma Array_join_split_name before a b after :
  Array_join (before ++ (a ++ " " ++ b) :: after) " "
  = Array_join (before ++ a :: b :: after) " ".
Proof.
  induction before as [|x before IH].
  - rewrite !app_nil_l. destruct after as [|c after]; [reflexivity|].
    rewrite !Array_join_cons by discriminate. by rewrite !append_assoc.
  - rewrite <- !app_comm_cons.
    rewrite !Array_join_cons by (by destruct before).
    by rewrite IH.
Qed.

(** ** What [check] computes *)

Lemma check_spec (JSON_parse : string -> option json) packages opt w :
  check JSON_parse packages opt w
  = (check_outcome JSON_parse packages opt w, w).
Proof.
  unfold check, check_outcome, bind. rewrite findPackageJson_spec.
  destruct (first_manifest _ _) as [pkgJson|]; [|reflexivity].
  unfold fs.readFileSync.
  destruct (files w !! pkgJson) as [[text|]|]; [|reflexivity..].
  unfold JSON_parse_or_throw.
  destruct (JSON_parse text) as [fileJson|]; [|reflexivity].
  unfold gather, field_keys, lift, ret.
  destruct (devDependencies opt), (dependencies opt);
    repeat match goal with
           | |- context [get ?v ?n] => destruct (get v n)
           | |- context [Object.keys ?f] => destruct (Object.keys f)
           end; reflexivity.
Qed.

(** The outcome for a manifest that is found, read and parsed. *)
Lemma check_found (JSON_parse : string -> option json)
    packages opt w pkgJson text fileJson :
  fst (findPackageJson None w) = Return (Some pkgJson) ->
  files w !! pkgJson = Some (File text) ->
  JSON_parse text = Some fileJson ->
  check JSON_parse packages opt w
  = (match gather fileJson opt with
     | Return deps => Return (fold_left (reducer deps) packages ∅)
     | Throw e => Throw e
     end, w).
Proof.
  intros Hfound Hfile Hparse. rewrite check_spec. unfold check_outcome.
  rewrite findPackageJson_spec in Hfound. simpl in Hfound.
  injection Hfound as ->. by rewrite Hfile, Hparse.
Qed.

(** *** Gathering the keys of the selected fields *)

Lemma field_keys_throws fileJson selected name deps e :
  field_keys fileJson selected name deps = Throw e -> e = TypeError.
Proof.
  unfold field_keys. destruct selected; [|discriminate].
  destruct fileJson; simpl;
    try (intros [= <-]; reflexivity);
    try (destruct (assoc name members) as [[]|]; simpl; congruence).
Qed.

Lemma field_keys_absent fileJson name deps :
  get fileJson name = Return None ->
  field_keys fileJson true name deps = Throw TypeError.
Proof. intros H. unfold field_keys. by rewrite H. Qed.

Lemma gather_absent fileJson opt :
  (devDependencies opt = true /\ get fileJson "devDependencies" = Return None)
  \/ (dependencies opt = true /\ get fileJson "dependencies" = Return None) ->
  gather fileJson opt = Throw TypeError.
Proof.
  unfold gather. intros [[Hsel Habs]|[Hsel Habs]]; rewrite Hsel.
  - by rewrite field_keys_absent.
  - destruct (field_keys fileJson (devDependencies opt) _ _) as [deps|e] eqn:Hdev.
    + by apply field_keys_absent.
    + by apply field_keys_throws in Hdev as ->.
Qed.

Lemma field_keys_present fileJson name deps v :
  get fileJson name = Return (Some v) -> is_object v ->
  exists ks, field_keys fileJson true name deps = Return (deps ++ ks)%list.
Proof.
  intros Hget Hv. unfold field_keys. rewrite Hget.
  destruct v; simpl in *; try contradiction; eauto.
Qed.

Lemma gather_present fileJson opt :
  (forall name, selects opt name ->
     exists v, get fileJson name = Return (Some v) /\ is_object v) ->
  exists deps, gather fileJson opt = Return deps.
Proof.
  intros Hsel. unfold gather.
  assert (exists deps,
             field_keys fileJson (devDependencies opt) "devDependencies" []
             = Return deps) as [deps ->].
  { destruct (devDependencies opt) eqn:Hdev; [|by eexists].
    destruct (Hsel "devDependencies") as (v & Hget & Hv); [by left|].
    destruct (field_keys_present _ _ [] _ Hget Hv) as [ks ->]. by eexists. }
  destruct (dependencies opt) eqn:Hdep; [|by eexists].
  destruct (Hsel "dependencies") as (v & Hget & Hv); [by right|].
  destruct (field_keys_present _ _ deps _ Hget Hv) as [ks ->]. by eexists.
Qed.

Lemma gather_objects members opt :
  (forall name, selects opt name ->
     exists ms, assoc name members = Some (JObject ms)) ->
  exists deps,
    gather (JObject members) opt = Return deps
    /\ forall pkg, pkg ∈ deps <-> declared members opt pkg.
Proof.
  intros Hsel. unfold gather, field_keys, declared, selects in Hsel |- *. simpl get.
  destruct (devDependencies opt) eqn:Hdev, (dependencies opt) eqn:Hdep.
  - destruct (Hsel "devDependencies") as [dev Hd]; [by left|].
    destruct (Hsel "dependencies") as [dep Hp]; [by right|].
    rewrite Hd, Hp. simpl. eexists; split; [reflexivity|].
    intros pkg. rewrite elem_of_app. split.
    + intros [H|H]; [exists "devDependencies", dev|exists "dependencies", dep];
        (split; [tauto|by split]).
    + intros (name & ms & [[-> _]|[-> _]] & Hms & Hin);
        [left|right]; congruence.
  - destruct (Hsel "devDependencies") as [dev Hd]; [by left|].
    rewrite Hd. simpl. eexists; split; [reflexivity|].
    intros pkg. split.
    + intros H. exists "devDependencies", dev. split; [tauto|by split].
    + intros (name & ms & [[-> _]|[_ ?]] & Hms & Hin); congruence.
  - destruct (Hsel "dependencies") as [dep Hp]; [by right|].
    rewrite Hp. simpl. eexists; split; [reflexivity|].
    intros pkg. split.
    + intros H. exists "dependencies", dep. split; [tauto|by split].
    + intros (name & ms & [[_ ?]|[-> _]] & Hms & Hin); congruence.
  - eexists; split; [reflexivity|]. intros pkg. split.
    + intros H. by apply elem_of_nil in H.
    + intros (name & ms & [[_ ?]|[_ ?]] & _); congruence.
Qed.

Lemma gather_unselected fileJson :
  gather fileJson {| dependencies := false; devDependencies := false |} = Return [].
Proof. reflexivity. Qed.


(** ** findPackageJson *)

Lemma ancestors_upto_snoc n dir :
  ancestors_upto (S n) dir
  = (ancestors_upto n dir ++ [Nat.iter (S n) (@removelast string) dir])%list.
Proof.
  revert dir. induction n as [|n IH]; intros dir; [reflexivity|].
  change (ancestors_upto (S (S n)) dir)
    with (dir :: ancestors_upto (S n) (removelast dir)).
  rewrite IH. rewrite <- Nat.iter_succ_r. reflexivity.
Qed.

Lemma iter_removelast_length (dir : list string) :
  Nat.iter (length dir) (@removelast string) dir = [].
Proof.
  induction dir as [|x l IH] using rev_ind; [reflexivity|].
  rewrite length_app, Nat.add_1_r, Nat.iter_succ_r, removelast_last. exact IH.
Qed.

Lemma ancestors_below_root dir :
  dir <> [] -> ancestors dir = (below_root dir ++ [[]])%list.
Proof.
  intros Hne. unfold ancestors, below_root.
  assert (Hlen : length dir = S (pred (length dir))).
  { destruct dir; [done|reflexivity]. }
  rewrite Hlen at 1. rewrite ancestors_upto_snoc, <- Hlen.
  by rewrite iter_removelast_length.
Qed.

Lemma first_manifest_app tree dirs1 dirs2 :
  first_manifest tree (dirs1 ++ dirs2)
  = match first_manifest tree dirs1 with
    | Some p => Some p
    | None => first_manifest tree dirs2
    end.
Proof.
  induction dirs1 as [|d dirs1 IH]; simpl; [reflexivity|].
  by destruct (bool_decide _).
Qed.

(** X1.  What [findPackageJson] does return: the nearest [package.json]
    at or above the start directory, provided it is not the one of the
    root directory or the search starts in the root directory. *)
Lemma findPackageJson_nearest startDir w p :
  first_manifest (files w) (ancestors (start_dir w startDir)) = Some p ->
  p <> ["package.json"] \/ start_dir w startDir = [] ->
  findPackageJson startDir w = (Return (Some p), w).
Proof.
  intros Hfirst Hside. rewrite findPackageJson_spec.
  destruct (decide (start_dir w startDir = [])) as [Hroot|Hdeep].
  - rewrite Hroot in *. exact (f_equal (fun r => (Return r, w)) Hfirst).
  - rewrite (ancestors_below_root _ Hdeep), first_manifest_app in Hfirst.
    destruct (first_manifest (files w) (below_root _)) as [q|].
    + by injection Hfirst as ->.
    + exfalso. simpl in Hfirst. destruct (bool_decide _); [|discriminate].
      injection Hfirst as <-. by destruct Hside.
Qed.

(** X2.  And what it misses: a [package.json] in the root directory
    when the search starts below the root and finds nothing on the way
    up. *)
Lemma findPackageJson_root_only startDir w :
  start_dir w startDir <> [] ->
  first_manifest (files w) (ancestors (start_dir w startDir)) = Some ["package.json"] ->
  findPackageJson startDir w = (Return None, w).
Proof.
  intros Hdeep Hfirst. rewrite findPackageJson_spec.
  rewrite (ancestors_below_root _ Hdeep), first_manifest_app in Hfirst.
  destruct (first_manifest (files w) (below_root _)) as [q|] eqn:Hq; [|reflexivity].
  injection Hfirst as ->.
  apply first_manifest_elem in Hq as (d & Hd & Heq & _).
  assert (d = []) as -> by (by destruct d as [|? [|? ?]]).
  exfalso. clear Heq. revert Hd Hdeep. generalize (start_dir w startDir).
  intros dir Hd Hdeep. unfold below_root in Hd.
  assert (Hlen : forall n (l : list string), (n < length l)%nat ->
                 [] ∉ ancestors_upto n l).
  { induction n as [|n IH]; intros l Hl; simpl.
    - intros H. apply list_elem_of_singleton in H. subst l. simpl in Hl. lia.
    - intros H. apply elem_of_cons in H as [H|H].
      + subst l. simpl in Hl. lia.
      + revert H. apply IH.
        induction l as [|y l _] using rev_ind; [simpl in Hl; lia|].
        rewrite removelast_last. rewrite length_app in Hl. simpl in Hl. lia. }
  apply (Hlen (pred (length dir)) dir); [|exact Hd].
  destruct dir; [done|simpl; lia].
Qed.

(** C1.  The claim asks for the nearest [package.json] at or above the
    start directory, the root directory included.  The loop tests its
    condition on the parent it has just moved to, so it leaves before the
    root is looked at: with [/package.json] as the only manifest and
    [/home/me] as working directory, [findPackageJson()] returns [null]
    although the root is an ancestor of the start directory and holds a
    [package.json]. *)
Theorem findPackageJson_skips_root :
  [] ∈ ancestors (start_dir root_manifest_world None)
  /\ files root_manifest_world !! ["package.json"] = Some (File "{}")
  /\ findPackageJson None root_manifest_world = (Return None, root_manifest_world).
Proof.
  split; [|split].
  - vm_compute. do 2 apply list_elem_of_further. apply list_elem_of_here.
  - reflexivity.
  - rewrite findPackageJson_spec. reflexivity.
Qed.

(** C3.  When no directory from the start directory up to and including
    the root holds a [package.json], [findPackageJson] returns [null]
    and throws nothing; and when that start directory is the working
    directory, the one [check] searches from, [check], [checkDeps] and
    [checkDevDeps] throw the error "Could not find a package.json file"
    and return no mapping. *)
Theorem no_manifest_null_and_throw
    (JSON_parse : string -> option json) (w : world)
    (startDir : option pathname) (packages : list string) (opt : options) :
  no_manifest_above w (start_dir w startDir) ->
  findPackageJson startDir w = (Return None, w)
  /\ (start_dir w startDir = start_dir w None ->
      check JSON_parse packages opt w
      = (Throw (Error "Could not find a package.json file"), w)
      /\ checkDeps JSON_parse packages w
         = (Throw (Error "Could not find a package.json file"), w)
      /\ checkDevDeps JSON_parse packages w
         = (Throw (Error "Could not find a package.json file"), w)).
Proof.
  intros Hnone.
  assert (Hfirst : first_manifest (files w) (below_root (start_dir w startDir)) = None).
  { apply first_manifest_none. apply Forall_forall. intros d Hd.
    apply (proj1 (Forall_forall _ _) Hnone). by apply below_root_ancestors. }
  split.
  - by rewrite findPackageJson_spec, Hfirst.
  - intros Hcwd. unfold checkDeps, checkDevDeps. rewrite !check_spec.
    unfold check_outcome. by rewrite <- Hcwd, Hfirst.
Qed.

(** The statement above in a world without any [package.json]. *)
Lemma no_manifest_null_and_throw_witness :
  no_manifest_above bare_world (start_dir bare_world None)
  /\ findPackageJson None bare_world = (Return None, bare_world)
  /\ checkDeps sample_parse ["a"] bare_world
     = (Throw (Error "Could not find a package.json file"), bare_world).
Proof.
  assert (H : no_manifest_above bare_world (start_dir bare_world None)).
  { vm_compute. repeat constructor. }
  split; [exact H|].
  destruct (no_manifest_null_and_throw sample_parse bare_world None ["a"]
              {| dependencies := true; devDependencies := false |} H)
    as [Hfind Hcheck].
  split; [exact Hfind|]. exact (proj1 (proj2 (Hcheck eq_refl))).
Defined.

(** ** check *)

(** C2, as the source has it.  When a manifest is found and parses but
    lacks a selected field, that field is handed to [Object.keys] as
    [undefined]: [check] throws a [TypeError] and returns no mapping. *)
Theorem check_absent_selected_field
    (JSON_parse : string -> option json) (packages : list string) (opt : options)
    (w : world) (pkgJson : list string) (text : string) (fileJson : json) :
  fst (findPackageJson None w) = Return (Some pkgJson) ->
  files w !! pkgJson = Some (File text) ->
  JSON_parse text = Some fileJson ->
  (devDependencies opt = true /\ get fileJson "devDependencies" = Return None)
  \/ (dependencies opt = true /\ get fileJson "dependencies" = Return None) ->
  check JSON_parse packages opt w = (Throw TypeError, w).
Proof.
  intros Hfound Hfile Hparse Habsent.
  rewrite (check_found _ _ _ _ _ _ _ Hfound Hfile Hparse).
  by rewrite gather_absent.
Qed.

(** The statement above for [checkDeps] and a manifest that has only
    [devDependencies]. *)
Lemma check_absent_selected_field_witness :
  checkDeps sample_parse ["x"] (project_world "{'devDependencies': {'x': '1.0.0'}}")
  = (Throw TypeError, project_world "{'devDependencies': {'x': '1.0.0'}}").
Proof.
  apply (check_absent_selected_field sample_parse ["x"]
           {| dependencies := true; devDependencies := false |}
           (project_world "{'devDependencies': {'x': '1.0.0'}}")
           ["home"; "me"; "project"; "package.json"]
           "{'devDependencies': {'x': '1.0.0'}}"
           (JObject [("devDependencies", JObject [("x", JString "1.0.0")])])).
  - vm_compute. reflexivity.
  - vm_compute. reflexivity.
  - vm_compute. reflexivity.
  - right. split; reflexivity.
Defined.

(** C2 fails as stated: for the manifest with [devDependencies]
    [{x: 1.0.0}] and no [dependencies] field, which is found and parses,
    [checkDeps(["x"])] throws instead of returning [{x: false}]. *)
Lemma checkDeps_absent_field_throws :
  let w := project_world "{'devDependencies': {'x': '1.0.0'}}" in
  fst (findPackageJson None w) = Return (Some ["home"; "me"; "project"; "package.json"])
  /\ sample_parse "{'devDependencies': {'x': '1.0.0'}}"
     = Some (JObject [("devDependencies", JObject [("x", JString "1.0.0")])])
  /\ fst (checkDeps sample_parse ["x"] w) = Throw TypeError
  /\ fst (checkDeps sample_parse ["x"] w) <> Return {[ "x" := false ]}.
Proof.
  cbv zeta. repeat split; try (vm_compute; reflexivity).
  vm_compute. discriminate.
Qed.

(** The other half of the example holds: the same manifest answers
    [checkDevDeps(["x"])] with [{x: true}]. *)
Example checkDevDeps_present_field :
  fst (checkDevDeps sample_parse ["x"]
         (project_world "{'devDependencies': {'x': '1.0.0'}}"))
  = Return {[ "x" := true ]}.
Proof. vm_compute. reflexivity. Qed.

(** X17.  What [check] does report.  For a manifest that is found,
    parses to an object and holds an object in every selected field,
    every requested name other than ["__proto__"] is a key of the
    returned mapping and is mapped to [true] exactly when it is, as the
    very same string, a key of one of the selected fields; the mapping
    has no key that was not requested. *)
Theorem check_reports_declared
    (JSON_parse : string -> option json) (packages : list string) (opt : options)
    (w : world) (pkgJson : list string) (text : string)
    (members : list (string * json)) :
  fst (findPackageJson None w) = Return (Some pkgJson) ->
  files w !! pkgJson = Some (File text) ->
  JSON_parse text = Some (JObject members) ->
  (forall name, selects opt name ->
     exists ms, assoc name members = Some (JObject ms)) ->
  exists status : gmap string bool,
    check JSON_parse packages opt w = (Return status, w)
    /\ dom status = list_to_set (filter (fun pkg => pkg <> "__proto__") packages)
    /\ forall pkg, pkg ∈ packages -> pkg <> "__proto__" ->
         exists b, status !! pkg = Some b
                   /\ (b = true <-> declared members opt pkg).
Proof.
  intros Hfound Hfile Hparse Hfields.
  destruct (gather_objects members opt Hfields) as (deps & Hgather & Hdeps).
  exists (fold_left (reducer deps) packages ∅). split; [|split].
  - rewrite (check_found _ _ _ _ _ _ _ Hfound Hfile Hparse). by rewrite Hgather.
  - apply reduce_dom.
  - intros pkg Hin Hproto. exists (bool_decide (pkg ∈ deps)). split.
    + rewrite reduce_lookup. by rewrite decide_True.
    + rewrite bool_decide_eq_true. apply Hdeps.
Qed.

(** The statement above for [checkDeps(["a", "c"])] in the sample
    project. *)
Lemma check_reports_declared_witness :
  exists status : gmap string bool,
    checkDeps sample_parse ["a"; "c"]
      (project_world "{'dependencies': {'a': '1.0.0', 'b': '2.0.0'}}")
    = (Return status, project_world "{'dependencies': {'a': '1.0.0', 'b': '2.0.0'}}")
    /\ dom status = list_to_set (filter (fun pkg => pkg <> "__proto__") ["a"; "c"])
    /\ forall pkg, pkg ∈ ["a"; "c"] -> pkg <> "__proto__" ->
         exists b, status !! pkg = Some b
                   /\ (b = true <->
                       declared [("dependencies",
                                  JObject [("a", JString "1.0.0"); ("b", JString "2.0.0")])]
                         {| dependencies := true; devDependencies := false |} pkg).
Proof.
  apply (check_reports_declared sample_parse ["a"; "c"]
           {| dependencies := true; devDependencies := false |}
           (project_world "{'dependencies': {'a': '1.0.0', 'b': '2.0.0'}}")
           ["home"; "me"; "project"; "package.json"]
           "{'dependencies': {'a': '1.0.0', 'b': '2.0.0'}}").
  - vm_compute. reflexivity.
  - vm_compute. reflexivity.
  - vm_compute. reflexivity.
  - intros name [[_ Hsel]|[-> _]]; [discriminate Hsel|].
    eexists. reflexivity.
Defined.

(** The example of the specification. *)
Example checkDeps_a_c :
  fst (checkDeps sample_parse ["a"; "c"]
         (project_world "{'dependencies': {'a': '1.0.0', 'b': '2.0.0'}}"))
  = Return {[ "a" := true; "c" := false ]}.
Proof. vm_compute. reflexivity. Qed.

(** The comparison is case-sensitive. *)
Example checkDeps_case_sensitive :
  fst (checkDeps sample_parse ["A"]
         (project_world "{'dependencies': {'a': '1.0.0', 'b': '2.0.0'}}"))
  = Return {[ "A" := false ]}.
Proof. vm_compute. reflexivity. Qed.

(** C4.  The claim, like the doc comment of [check] ("an object whose
    keys are the module names and values are booleans"), asks for one
    key per requested name.  The source collects the answers in a plain
    object used as a map, and the assignment [status[pkg] = ...] stores
    nothing for [pkg = "__proto__"]: for the manifest with [dependencies]
    [{a: 1.0.0, b: 2.0.0}], [checkDeps(["a", "__proto__"])] returns an
    object whose only key is [a], so its keys are not the requested
    names. *)
Theorem check_proto_key_missing :
  exists status : gmap string bool,
    fst (checkDeps sample_parse ["a"; "__proto__"]
           (project_world "{'dependencies': {'a': '1.0.0', 'b': '2.0.0'}}"))
    = Return status
    /\ status !! "__proto__" = None
    /\ dom status <> list_to_set ["a"; "__proto__"].
Proof.
  exists {[ "a" := true ]}. split; [vm_compute; reflexivity|]. split.
  - reflexivity.
  - intros Heq.
    assert (Hin : "__proto__" ∈ dom ({[ "a" := true ]} : gmap string bool)).
    { rewrite Heq. apply elem_of_list_to_set.
      apply list_elem_of_further, list_elem_of_here. }
    apply elem_of_dom in Hin as [b Hb]. discriminate Hb.
Qed.

(** C5, as the source has it.  With an empty list of packages [check]
    returns the empty mapping whenever every selected field of the parsed
    manifest is present and holds an object (for [checkDeps]: the
    [dependencies] field), whatever else the manifest holds. *)
Theorem check_empty_list
    (JSON_parse : string -> option json) (opt : options)
    (w : world) (pkgJson : list string) (text : string) (fileJson : json) :
  fst (findPackageJson None w) = Return (Some pkgJson) ->
  files w !! pkgJson = Some (File text) ->
  JSON_parse text = Some fileJson ->
  (forall name, selects opt name ->
     exists v, get fileJson name = Return (Some v) /\ is_object v) ->
  check JSON_parse [] opt w = (Return ∅, w).
Proof.
  intros Hfound Hfile Hparse Hfields.
  rewrite (check_found _ _ _ _ _ _ _ Hfound Hfile Hparse).
  by destruct (gather_present fileJson opt Hfields) as [deps ->].
Qed.

(** The statement above for [checkDeps([])] in the sample project. *)
Lemma check_empty_list_witness :
  checkDeps sample_parse []
    (project_world "{'dependencies': {'a': '1.0.0', 'b': '2.0.0'}}")
  = (Return ∅, project_world "{'dependencies': {'a': '1.0.0', 'b': '2.0.0'}}").
Proof.
  apply (check_empty_list sample_parse
           {| dependencies := true; devDependencies := false |}
           (project_world "{'dependencies': {'a': '1.0.0', 'b': '2.0.0'}}")
           ["home"; "me"; "project"; "package.json"]
           "{'dependencies': {'a': '1.0.0', 'b': '2.0.0'}}"
           (JObject [("dependencies",
                      JObject [("a", JString "1.0.0"); ("b", JString "2.0.0")])])).
  - vm_compute. reflexivity.
  - vm_compute. reflexivity.
  - vm_compute. reflexivity.
  - intros name [[_ Hsel]|[-> _]]; [discriminate Hsel|].
    eexists. split; [reflexivity|exact I].
Defined.

(** C5 fails as stated: the manifest [{}] is found and parses, and
    [checkDeps([])] throws a [TypeError] instead of returning the empty
    mapping. *)
Lemma checkDeps_empty_list_throws :
  fst (findPackageJson None (project_world "{}"))
  = Return (Some ["home"; "me"; "project"; "package.json"])
  /\ sample_parse "{}" = Some (JObject [])
  /\ fst (checkDeps sample_parse [] (project_world "{}")) = Throw TypeError
  /\ fst (checkDeps sample_parse [] (project_world "{}")) <> Return ∅.
Proof.
  repeat split; try (vm_compute; reflexivity).
  vm_compute. discriminate.
Qed.

(** X18.  With neither field selected [check] reads no field of the
    parsed manifest and does not fail, whatever the manifest parses to:
    every requested name other than ["__proto__"] is a key of the
    returned mapping and is mapped to [false], and the mapping has no key
    that was not requested. *)
Theorem check_nothing_selected
    (JSON_parse : string -> option json) (packages : list string)
    (w : world) (pkgJson : list string) (text : string) (fileJson : json) :
  fst (findPackageJson None w) = Return (Some pkgJson) ->
  files w !! pkgJson = Some (File text) ->
  JSON_parse text = Some fileJson ->
  exists status : gmap string bool,
    check JSON_parse packages {| dependencies := false; devDependencies := false |} w
    = (Return status, w)
    /\ dom status = list_to_set (filter (fun pkg => pkg <> "__proto__") packages)
    /\ forall pkg, pkg ∈ packages -> pkg <> "__proto__" -> status !! pkg = Some false.
Proof.
  intros Hfound Hfile Hparse.
  exists (fold_left (reducer []) packages ∅). split; [|split].
  - rewrite (check_found _ _ _ _ _ _ _ Hfound Hfile Hparse).
    by rewrite gather_unselected.
  - apply reduce_dom.
  - intros pkg Hin Hproto. rewrite reduce_lookup. rewrite decide_True by done.
    rewrite bool_decide_eq_false_2; [done|]. apply not_elem_of_nil.
Qed.

(** The statement above in the sample project. *)
Lemma check_nothing_selected_witness :
  exists status : gmap string bool,
    check sample_parse ["a"; "c"] {| dependencies := false; devDependencies := false |}
      (project_world "{'dependencies': {'a': '1.0.0', 'b': '2.0.0'}}")
    = (Return status, project_world "{'dependencies': {'a': '1.0.0', 'b': '2.0.0'}}")
    /\ dom status = list_to_set (filter (fun pkg => pkg <> "__proto__") ["a"; "c"])
    /\ forall pkg, pkg ∈ ["a"; "c"] -> pkg <> "__proto__" -> status !! pkg = Some false.
Proof.
  apply (check_nothing_selected sample_parse ["a"; "c"]
           (project_world "{'dependencies': {'a': '1.0.0', 'b': '2.0.0'}}")
           ["home"; "me"; "project"; "package.json"]
           "{'dependencies': {'a': '1.0.0', 'b': '2.0.0'}}"
           (JObject [("dependencies",
                      JObject [("a", JString "1.0.0"); ("b", JString "2.0.0")])])).
  - vm_compute. reflexivity.
  - vm_compute. reflexivity.
  - vm_compute. reflexivity.
Defined.




(** ** Queries do not write *)

(** C10.  [findPackageJson], [check], [checkDeps] and [checkDevDeps]
    leave the world (working directory, file system and the list of
    spawned commands) exactly as they found it, whether they return or
    throw. *)
Theorem queries_read_only
    (JSON_parse : string -> option json) (startDir : option pathname)
    (packages : list string) (opt : options) :
  read_only (findPackageJson startDir)
  /\ read_only (check JSON_parse packages opt)
  /\ read_only (checkDeps JSON_parse packages)
  /\ read_only (checkDevDeps JSON_parse packages).
Proof.
  unfold read_only, checkDeps, checkDevDeps. repeat split; intros w.
  - by rewrite findPackageJson_spec.
  - by rewrite check_spec.
  - by rewrite check_spec.
  - by rewrite check_spec.
Qed.

(** ** installSyncSaveDev *)

Lemma installSyncSaveDev_spawned subprocess packages w :
  spawned (snd (installSyncSaveDev subprocess packages w))
  = (spawned w
     ++ [("npm i --save-dev "
          ++ match packages with
             | AnArray arr => Array_join arr " "
             | OneString s => s
             end)%string])%list.
Proof.
  unfold installSyncSaveDev, execSync.
  destruct (subprocess _ _) as [files' status]. by destruct (status =? 0)%Z.
Qed.

(** C6.  For a list of names, [installSyncSaveDev] runs exactly one
    command, ["npm i --save-dev "] followed by the names joined with
    single spaces, in which every name occurs; and a single string [s]
    does exactly what the one-element list [[s]] does. *)
Theorem installSyncSaveDev_one_command
    (subprocess : string -> gmap (list string) node -> gmap (list string) node * Z)
    (names : list string) (w : world) :
  spawned (snd (installSyncSaveDev subprocess (AnArray names) w))
  = (spawned w ++ [("npm i --save-dev " ++ String.concat " " names)%string])%list
  /\ Forall (fun name =>
               occurs_in name ("npm i --save-dev " ++ String.concat " " names))
            names
  /\ forall s,
       installSyncSaveDev subprocess (OneString s) w
       = installSyncSaveDev subprocess (AnArray [s]) w.
Proof.
  split; [|split].
  - by rewrite installSyncSaveDev_spawned, Array_join_concat.
  - apply Forall_forall. intros name Hin. rewrite <- Array_join_concat.
    destruct (Array_join_occurs name names " " Hin) as (before & after & ->).
    exists ("npm i --save-dev " ++ before), after. by rewrite append_assoc.
  - reflexivity.
Qed.

(** C9.  For a list of names and for the single string made of the
    names joined with single spaces, [installSyncSaveDev] issues one and
    the same command, ["npm i --save-dev "] followed by that string, and
    the two calls do the same in every respect.  Hence a name that
    contains a space cannot be told from two names: the list with the
    name [a b] issues the command of the list with the names [a] and
    [b]. *)
Theorem installSyncSaveDev_joined
    (subprocess : string -> gmap (list string) node -> gmap (list string) node * Z)
    (ps before after : list string) (a b : string) (w : world) :
  spawned (snd (installSyncSaveDev subprocess (AnArray ps) w))
  = (spawned w ++ [("npm i --save-dev " ++ String.concat " " ps)%string])%list
  /\ spawned (snd (installSyncSaveDev subprocess
                     (OneString (String.concat " " ps)) w))
     = (spawned w ++ [("npm i --save-dev " ++ String.concat " " ps)%string])%list
  /\ installSyncSaveDev subprocess (AnArray ps) w
     = installSyncSaveDev subprocess (OneString (String.concat " " ps)) w
  /\ spawned (snd (installSyncSaveDev subprocess
                     (AnArray (before ++ (a ++ " " ++ b)%string :: after)) w))
     = (spawned w
        ++ [("npm i --save-dev "
             ++ String.concat " " (before ++ a :: b :: after))%string])%list
  /\ installSyncSaveDev subprocess
       (AnArray (before ++ (a ++ " " ++ b)%string :: after)) w
     = installSyncSaveDev subprocess (AnArray (before ++ a :: b :: after)) w.
Proof.
  repeat split.
  - by rewrite installSyncSaveDev_spawned, Array_join_concat.
  - by rewrite installSyncSaveDev_spawned.
  - unfold installSyncSaveDev. by rewrite Array_join_concat.
  - by rewrite installSyncSaveDev_spawned, Array_join_split_name, Array_join_concat.
  - unfold installSyncSaveDev. by rewrite Array_join_split_name.
Qed.

(** ** Further properties of the search *)

(** X1 in the sample project. *)
Lemma findPackageJson_nearest_witness :
  findPackageJson None (project_world "{}")
  = (Return (Some ["home"; "me"; "project"; "package.json"]), project_world "{}").
Proof.
  apply (findPackageJson_nearest None (project_world "{}")
           ["home"; "me"; "project"; "package.json"]).
  - vm_compute. reflexivity.
  - left. discriminate.
Defined.

(** X2 from a relative start directory below the root. *)
Lemma findPackageJson_root_only_witness :
  findPackageJson (Some (rel [".."; "you"; "."; "src"])) root_manifest_world
  = (Return None, root_manifest_world).
Proof.
  apply (findPackageJson_root_only (Some (rel [".."; "you"; "."; "src"]))
           root_manifest_world).
  - vm_compute. discriminate.
  - vm_compute. reflexivity.
Defined.

Lemma ancestors_upto_head n dir :
  exists rest, ancestors_upto n dir = dir :: rest.
Proof. destruct n; simpl; eauto. Qed.

Lemma removelast_prefix (l : list string) : removelast l `prefix_of` l.
Proof.
  induction l as [|x l _] using rev_ind; [by exists []|].
  rewrite removelast_last. by exists [x].
Qed.

Lemma ancestors_upto_prefix n dir d :
  d ∈ ancestors_upto n dir -> d `prefix_of` dir.
Proof.
  revert dir. induction n as [|n IH]; intros dir Hd; simpl in Hd.
  - by apply list_elem_of_singleton in Hd as ->.
  - apply elem_of_cons in Hd as [->|Hd]; [done|].
    etransitivity; [by apply IH|]. apply removelast_prefix.
Qed.

Lemma clean_prefix d dir : d `prefix_of` dir -> clean dir -> clean d.
Proof. intros [k ->] H. by apply Forall_app in H as [H _]. Qed.

(** X3.  A path returned by [findPackageJson] is the [package.json] entry
    of the start directory or of one of its ancestors, and that entry
    exists. *)
Theorem findPackageJson_sound (startDir : option pathname) (w : world)
    (p : list string) :
  fst (findPackageJson startDir w) = Return (Some p) ->
  exists d,
    p = (d ++ ["package.json"])%list
    /\ d `prefix_of` start_dir w startDir
    /\ is_Some (files w !! p).
Proof.
  rewrite findPackageJson_spec. cbn [fst]. intros [= Hfirst].
  apply first_manifest_elem in Hfirst as (d & Hd & Hp & Hex).
  exists d. repeat split; [exact Hp| |exact Hex].
  by apply ancestors_upto_prefix in Hd.
Qed.

Lemma findPackageJson_sound_witness :
  exists d,
    ["home"; "me"; "project"; "package.json"] = (d ++ ["package.json"])%list
    /\ d `prefix_of` start_dir (project_world "{}") None
    /\ is_Some (files (project_world "{}") !! ["home"; "me"; "project"; "package.json"]).
Proof.
  apply (findPackageJson_sound None (project_world "{}")).
  vm_compute. reflexivity.
Defined.

(** X4.  The search is stable: started again in the directory of the
    manifest it found, it finds the same manifest. *)
Theorem findPackageJson_again (startDir : option pathname) (w : world)
    (d : list string) :
  fst (findPackageJson startDir w) = Return (Some (d ++ ["package.json"])%list) ->
  findPackageJson (Some (abs d)) w = (Return (Some (d ++ ["package.json"])%list), w).
Proof.
  rewrite !findPackageJson_spec. cbn [fst]. intros [= Hfirst].
  apply first_manifest_elem in Hfirst as (d' & Hd' & Heq & Hex).
  apply app_inj_tail in Heq as [<- _].
  assert (Hclean : clean d).
  { apply (clean_prefix d (start_dir w startDir)).
    - by apply ancestors_upto_prefix in Hd'.
    - apply clean_resolve. }
  assert (Hstart : start_dir w (Some (abs d)) = d).
  { unfold start_dir, path.resolve. simpl. by apply normalize_clean. }
  rewrite Hstart. unfold below_root.
  destruct (ancestors_upto_head (pred (length d)) d) as [rest ->].
  simpl. by rewrite bool_decide_eq_true_2.
Qed.

Lemma findPackageJson_again_witness :
  findPackageJson (Some (abs ["home"; "me"; "project"])) (project_world "{}")
  = (Return (Some (["home"; "me"; "project"] ++ ["package.json"])%list),
     project_world "{}").
Proof.
  apply (findPackageJson_again None (project_world "{}") ["home"; "me"; "project"]).
  vm_compute. reflexivity.
Defined.

Lemma first_manifest_existence tree1 tree2 dirs :
  Forall (fun d => is_Some (tree1 !! (d ++ ["package.json"])%list)
                   <-> is_Some (tree2 !! (d ++ ["package.json"])%list)) dirs ->
  first_manifest tree1 dirs = first_manifest tree2 dirs.
Proof.
  induction 1 as [|d dirs Hd _ IH]; simpl; [reflexivity|].
  rewrite IH. by rewrite (bool_decide_ext _ _ Hd).
Qed.

(** X5.  [findPackageJson] looks at nothing but the existence of the
    [package.json] entries of the directories it visits: two worlds with
    the same working directory that agree on which of these entries
    exist (file or directory, whatever the content) give the same
    result. *)
Theorem findPackageJson_existence_only (startDir : option pathname)
    (w1 w2 : world) :
  cwd w1 = cwd w2 ->
  Forall (fun d => is_Some (files w1 !! (d ++ ["package.json"])%list)
                   <-> is_Some (files w2 !! (d ++ ["package.json"])%list))
         (below_root (start_dir w1 startDir)) ->
  fst (findPackageJson startDir w1) = fst (findPackageJson startDir w2).
Proof.
  intros Hcwd Hsame. rewrite !findPackageJson_spec. cbn [fst].
  assert (Hstart : start_dir w2 startDir = start_dir w1 startDir).
  { unfold start_dir. by rewrite Hcwd. }
  rewrite Hstart. by rewrite (first_manifest_existence _ _ _ Hsame).
Qed.

Lemma findPackageJson_existence_only_witness :
  fst (findPackageJson None (project_world "{}"))
  = fst (findPackageJson None directory_manifest_world).
Proof.
  apply (findPackageJson_existence_only None (project_world "{}")
           directory_manifest_world).
  - reflexivity.
  - vm_compute. repeat constructor; try (intros _; by eexists);
      intros [? H]; discriminate H.
Defined.

(** ** Further properties of check *)

Lemma gather_throws fileJson opt e :
  gather fileJson opt = Throw e -> e = TypeError.
Proof.
  unfold gather.
  destruct (field_keys fileJson (devDependencies opt) _ _) as [deps|e'] eqn:Hdev.
  - apply field_keys_throws.
  - intros [= <-]. by apply field_keys_throws in Hdev.
Qed.

Lemma check_outcome_return parse packages opt w status :
  check_outcome parse packages opt w = Return status ->
  exists pkgJson text fileJson deps,
    first_manifest (files w) (below_root (start_dir w None)) = Some pkgJson
    /\ files w !! pkgJson = Some (File text)
    /\ parse text = Some fileJson
    /\ gather fileJson opt = Return deps
    /\ status = fold_left (reducer deps) packages ∅.
Proof.
  unfold check_outcome.
  destruct (first_manifest _ _) as [pkgJson|] eqn:Hfirst; [|discriminate].
  destruct (files w !! pkgJson) as [[text|]|] eqn:Hfile; [|discriminate..].
  destruct (parse text) as [fileJson|] eqn:Hparse; [|discriminate].
  destruct (gather fileJson opt) as [deps|] eqn:Hg; [|discriminate].
  intros [= <-]. by exists pkgJson, text, fileJson, deps.
Qed.

(** X6.  [check] throws the error "Could not find a package.json file"
    exactly when [findPackageJson()] returns [null]; no other failure
    is reported under that message. *)
Theorem check_not_found_iff
    (JSON_parse : string -> option json) (packages : list string) (opt : options)
    (w : world) :
  fst (check JSON_parse packages opt w)
  = Throw (Error "Could not find a package.json file")
  <-> fst (findPackageJson None w) = Return None.
Proof.
  rewrite check_spec, findPackageJson_spec. cbn [fst]. unfold check_outcome.
  destruct (first_manifest _ _) as [pkgJson|]; [|done].
  split; [|discriminate].
  destruct (files w !! pkgJson) as [[text|]|]; [|discriminate..].
  destruct (JSON_parse text) as [fileJson|]; [|discriminate].
  destruct (gather fileJson opt) as [deps|e] eqn:Hg; [discriminate|].
  apply gather_throws in Hg as ->. discriminate.
Qed.

(** X8.  [fs.existsSync] accepts a directory, so a directory named
    [package.json] is taken for the manifest and reading it makes
    [check] throw [EISDIR]; the search does not go on to a manifest
    further up. *)
Theorem check_manifest_is_directory
    (JSON_parse : string -> option json) (packages : list string) (opt : options)
    (w : world) (pkgJson : list string) :
  fst (findPackageJson None w) = Return (Some pkgJson) ->
  files w !! pkgJson = Some Directory ->
  check JSON_parse packages opt w = (Throw (SystemError "EISDIR"), w).
Proof.
  rewrite findPackageJson_spec, check_spec. cbn [fst]. intros [= Hfirst] Hdir.
  unfold check_outcome. by rewrite Hfirst, Hdir.
Qed.

Lemma check_manifest_is_directory_witness :
  checkDeps sample_parse ["a"] directory_manifest_world
  = (Throw (SystemError "EISDIR"), directory_manifest_world).
Proof.
  apply (check_manifest_is_directory sample_parse ["a"]
           {| dependencies := true; devDependencies := false |}
           directory_manifest_world ["home"; "me"; "project"; "package.json"]).
  - vm_compute. reflexivity.
  - vm_compute. reflexivity.
Defined.

(** X9.  A manifest whose text [JSON.parse] rejects makes [check] throw
    the [SyntaxError]: it is not caught, and no mapping is returned. *)
Theorem check_malformed_manifest
    (JSON_parse : string -> option json) (packages : list string) (opt : options)
    (w : world) (pkgJson : list string) (text : string) :
  fst (findPackageJson None w) = Return (Some pkgJson) ->
  files w !! pkgJson = Some (File text) ->
  JSON_parse text = None ->
  check JSON_parse packages opt w = (Throw SyntaxError, w).
Proof.
  rewrite findPackageJson_spec, check_spec. cbn [fst]. intros [= Hfirst] Hfile Hparse.
  unfold check_outcome. by rewrite Hfirst, Hfile, Hparse.
Qed.

Lemma check_malformed_manifest_witness :
  checkDevDeps sample_parse [] (project_world "{'dependencies': ")
  = (Throw SyntaxError, project_world "{'dependencies': ").
Proof.
  apply (check_malformed_manifest sample_parse []
           {| dependencies := false; devDependencies := true |}
           (project_world "{'dependencies': ")
           ["home"; "me"; "project"; "package.json"] "{'dependencies': ").
  - vm_compute. reflexivity.
  - vm_compute. reflexivity.
  - vm_compute. reflexivity.
Defined.

Lemma field_keys_no_keys fileJson name deps :
  (forall members, fileJson <> JObject members)
  \/ get fileJson name = Return (Some JNull) ->
  field_keys fileJson true name deps = Throw TypeError.
Proof.
  unfold field_keys. intros [Hshape | ->]; [|reflexivity].
  destruct fileJson; try reflexivity. by destruct (Hshape members).
Qed.

(** X10.  A selected field that is [null], or any selected field of a
    manifest that parses to something other than an object ([null], a
    number, a string, a boolean, an array), makes [check] throw a
    [TypeError]. *)
Theorem check_null_field_or_no_object
    (JSON_parse : string -> option json) (packages : list string) (opt : options)
    (w : world) (pkgJson : list string) (text : string) (fileJson : json)
    (name : string) :
  fst (findPackageJson None w) = Return (Some pkgJson) ->
  files w !! pkgJson = Some (File text) ->
  JSON_parse text = Some fileJson ->
  selects opt name ->
  (forall members, fileJson <> JObject members)
  \/ get fileJson name = Return (Some JNull) ->
  check JSON_parse packages opt w = (Throw TypeError, w).
Proof.
  intros Hfound Hfile Hparse Hsel Hbad.
  rewrite (check_found _ _ _ _ _ _ _ Hfound Hfile Hparse).
  assert (Hg : gather fileJson opt = Throw TypeError); [|by rewrite Hg].
  unfold gather. destruct Hsel as [[-> Hsel]|[-> Hsel]]; rewrite Hsel.
  - by rewrite field_keys_no_keys.
  - destruct (field_keys fileJson (devDependencies opt) _ _) as [deps|e] eqn:Hdev.
    + by apply field_keys_no_keys.
    + by apply field_keys_throws in Hdev as ->.
Qed.

Lemma check_null_field_or_no_object_witness :
  checkDeps sample_parse_more ["a"] (project_world "{'dependencies': null}")
  = (Throw TypeError, project_world "{'dependencies': null}")
  /\ checkDevDeps sample_parse_more ["a"] (project_world "[]")
     = (Throw TypeError, project_world "[]").
Proof.
  split.
  - apply (check_null_field_or_no_object sample_parse_more ["a"]
             {| dependencies := true; devDependencies := false |}
             (project_world "{'dependencies': null}")
             ["home"; "me"; "project"; "package.json"] "{'dependencies': null}"
             (JObject [("dependencies", JNull)]) "dependencies").
    + vm_compute. reflexivity.
    + vm_compute. reflexivity.
    + vm_compute. reflexivity.
    + right. split; reflexivity.
    + right. reflexivity.
  - apply (check_null_field_or_no_object sample_parse_more ["a"]
             {| dependencies := false; devDependencies := true |}
             (project_world "[]")
             ["home"; "me"; "project"; "package.json"] "[]"
             (JArray []) "devDependencies").
    + vm_compute. reflexivity.
    + vm_compute. reflexivity.
    + vm_compute. reflexivity.
    + left. split; reflexivity.
    + left. discriminate.
Defined.

Lemma reduce_app deps (ps qs : list string) :
  fold_left (reducer deps) (ps ++ qs) ∅
  = fold_left (reducer deps) ps ∅ ∪ fold_left (reducer deps) qs ∅.
Proof.
  apply map_eq. intros key. rewrite lookup_union, !reduce_lookup.
  rewrite lookup_empty.
  destruct (decide (key ∈ ps /\ key <> "__proto__")) as [[Hin Hp]|Hps].
  - rewrite decide_True by (split; [apply elem_of_app; by left|exact Hp]).
    by case_decide.
  - destruct (decide (key ∈ qs /\ key <> "__proto__")) as [[Hin Hp]|Hqs].
    + rewrite decide_True by (split; [apply elem_of_app; by right|exact Hp]).
      reflexivity.
    + rewrite decide_False; [reflexivity|]. intros [Hin Hp].
      apply elem_of_app in Hin as [Hin|Hin]; [apply Hps|apply Hqs]; by split.
Qed.

(** X11.  Whenever [check] returns, whatever the manifest holds, the
    keys of the mapping are the requested names other than
    ["__proto__"]: no name is left out and none is added. *)
Theorem check_keys_are_requested
    (JSON_parse : string -> option json) (packages : list string) (opt : options)
    (w : world) (status : gmap string bool) :
  fst (check JSON_parse packages opt w) = Return status ->
  dom status = list_to_set (filter (fun pkg => pkg <> "__proto__") packages).
Proof.
  rewrite check_spec. cbn [fst]. intros Hret.
  apply check_outcome_return in Hret as (? & ? & ? & deps & _ & _ & _ & _ & ->).
  apply reduce_dom.
Qed.

Lemma check_keys_are_requested_witness :
  dom ({[ "x" := true; "y" := false ]} : gmap string bool)
  = list_to_set (filter (fun pkg => pkg <> "__proto__") ["y"; "x"; "__proto__"; "y"]).
Proof.
  apply (check_keys_are_requested sample_parse ["y"; "x"; "__proto__"; "y"]
           {| dependencies := false; devDependencies := true |}
           (project_world "{'devDependencies': {'x': '1.0.0'}}")).
  vm_compute. reflexivity.
Defined.

(** X13.  Asking in two calls or in one is the same: when [check]
    answers two lists of names, its answer for the two lists put together
    is the union of the two mappings. *)
Theorem check_append
    (JSON_parse : string -> option json) (ps qs : list string) (opt : options)
    (w : world) (m1 m2 : gmap string bool) :
  fst (check JSON_parse ps opt w) = Return m1 ->
  fst (check JSON_parse qs opt w) = Return m2 ->
  fst (check JSON_parse (ps ++ qs) opt w) = Return (m1 ∪ m2).
Proof.
  rewrite !check_spec. cbn [fst]. intros H1 H2.
  apply check_outcome_return in H1
    as (pkgJson & text & fileJson & deps & Hfirst & Hfile & Hparse & Hg & ->).
  revert H2. unfold check_outcome. rewrite Hfirst, Hfile, Hparse, Hg.
  intros [= <-]. by rewrite reduce_app.
Qed.

Lemma check_append_witness :
  fst (checkDeps sample_parse (["a"] ++ ["c"; "b"])
         (project_world "{'dependencies': {'a': '1.0.0', 'b': '2.0.0'}}"))
  = Return ({[ "a" := true ]} ∪ {[ "b" := true; "c" := false ]}).
Proof.
  apply (check_append sample_parse ["a"] ["c"; "b"]
           {| dependencies := true; devDependencies := false |}
           (project_world "{'dependencies': {'a': '1.0.0', 'b': '2.0.0'}}")).
  - vm_compute. reflexivity.
  - vm_compute. reflexivity.
Defined.

(** X14.  Whether and how [check] fails does not depend on the names
    asked for: an error thrown for one list of names is thrown for every
    list, the empty one included. *)
Theorem check_failure_any_names
    (JSON_parse : string -> option json) (ps qs : list string) (opt : options)
    (w : world) (e : exn) :
  fst (check JSON_parse ps opt w) = Throw e ->
  fst (check JSON_parse qs opt w) = Throw e.
Proof.
  rewrite !check_spec. cbn [fst]. unfold check_outcome.
  destruct (first_manifest _ _) as [pkgJson|]; [|done].
  destruct (files w !! pkgJson) as [[text|]|]; [|done..].
  destruct (JSON_parse text) as [fileJson|]; [|done].
  by destruct (gather fileJson opt) as [deps|].
Qed.

Lemma check_failure_any_names_witness :
  fst (checkDeps sample_parse []
         (project_world "{'devDependencies': {'x': '1.0.0'}}"))
  = Throw TypeError.
Proof.
  apply (check_failure_any_names sample_parse ["x"] []
           {| dependencies := true; devDependencies := false |}
           (project_world "{'devDependencies': {'x': '1.0.0'}}")).
  vm_compute. reflexivity.
Defined.

Lemma field_keys_prepend fileJson name deps ks :
  field_keys fileJson true name [] = Return ks ->
  field_keys fileJson true name deps = Return (deps ++ ks)%list.
Proof.
  unfold field_keys. destruct (get fileJson name) as [field|]; [|discriminate].
  destruct (Object.keys field) as [ks'|]; [|discriminate].
  by intros [= <-].
Qed.

(** X15.  Selecting both fields is the disjunction of the two wrappers:
    when [checkDeps] and [checkDevDeps] both answer, [check] with both
    options set answers too, and reports a name as declared exactly when
    one of the two does. *)
Theorem check_both_fields
    (JSON_parse : string -> option json) (packages : list string)
    (w : world) (m1 m2 : gmap string bool) :
  fst (checkDeps JSON_parse packages w) = Return m1 ->
  fst (checkDevDeps JSON_parse packages w) = Return m2 ->
  fst (check JSON_parse packages {| dependencies := true; devDependencies := true |} w)
  = Return (union_with (fun b1 b2 => Some (b1 || b2)) m1 m2).
Proof.
  unfold checkDeps, checkDevDeps. rewrite !check_spec. cbn [fst]. intros H1 H2.
  apply check_outcome_return in H1
    as (pkgJson & text & fileJson & dep & Hfirst & Hfile & Hparse & Hdep & ->).
  revert H2. unfold check_outcome. rewrite Hfirst, Hfile, Hparse.
  destruct (gather fileJson {| dependencies := false; devDependencies := true |})
    as [dev|] eqn:Hdev; [|discriminate].
  intros [= <-].
  change (field_keys fileJson true "dependencies" [] = Return dep) in Hdep.
  assert (Hdev' : field_keys fileJson true "devDependencies" [] = Return dev).
  { revert Hdev. unfold gather. cbn [dependencies devDependencies].
    destruct (field_keys fileJson true "devDependencies" []); [|discriminate].
    by intros [= ->]. }
  assert (Hboth : gather fileJson {| dependencies := true; devDependencies := true |}
                  = Return (dev ++ dep)%list).
  { unfold gather. cbn [dependencies devDependencies]. rewrite Hdev'.
    by apply field_keys_prepend. }
  rewrite Hboth. f_equal. apply map_eq. intros key.
  rewrite lookup_union_with, !reduce_lookup, lookup_empty.
  case_decide; [|reflexivity]. simpl. f_equal.
  rewrite <- bool_decide_or. apply bool_decide_ext.
  rewrite elem_of_app. tauto.
Qed.

Lemma check_both_fields_witness :
  fst (check sample_parse_more ["a"; "x"; "q"]
         {| dependencies := true; devDependencies := true |}
         (project_world
            "{'dependencies': {'a': '1.0.0'}, 'devDependencies': {'x': '1.0.0'}}"))
  = Return (union_with (fun b1 b2 => Some (b1 || b2))
              {[ "a" := true; "x" := false; "q" := false ]}
              {[ "a" := false; "x" := true; "q" := false ]}).
Proof.
  apply (check_both_fields sample_parse_more ["a"; "x"; "q"]
           (project_world
              "{'dependencies': {'a': '1.0.0'}, 'devDependencies': {'x': '1.0.0'}}")).
  - vm_compute. reflexivity.
  - vm_compute. reflexivity.
Defined.

(** ** The start directory *)

(** X16.  The start directory counts only through what [path.resolve]
    makes of it: a relative path, a path with [.] or [..] components or
    with doubled separators, and the empty string give the search that
    their resolved, absolute form gives. *)
Theorem findPackageJson_resolved_start (p : pathname) (w : world) :
  findPackageJson (Some p) w
  = findPackageJson (Some (abs (path.resolve (cwd w) (or_cwd (Some p) (cwd w))))) w.
Proof.
  rewrite !findPackageJson_spec. do 3 f_equal.
  unfold start_dir at 2. unfold path.resolve at 1. simpl.
  rewrite normalize_clean; [reflexivity|]. apply clean_resolve.
Qed.
